(** * nodeshot.core.base.managers: publication and access-level filters

    A shallow embedding of [PublishedMixin], [ACLMixin] and
    [ExtendedManagerMixin].  The mixins are written against Django's
    [Manager]/[QuerySet] interface; the part of that interface they call
    ([filter], [get_query_set], [order_by], indexing, [objects.get]) is
    modelled first, then the mixins, then their properties. *)

From stdpp Require Import base option list strings gmap sorting.
From Stdlib Require Import ZArith Lia.

Local Open Scope Z_scope.

(** ** Python exceptions and fallible calls *)

Inductive Exception : Type :=
| ValueError        (* Django: "Cannot use None as a query value" *)
| IndexError        (* "list index out of range" *)
| AttributeError
| TypeError
| NameError
| DoesNotExist      (* User.DoesNotExist *)
| UnknownTierError. (* named by the error table of the specification;
                       no statement of managers.py raises it *)

Inductive result (A : Type) : Type :=
| Return (a : A)
| Raise (e : Exception).
Arguments Return {A} a.
Arguments Raise {A} e.

(** Sequencing: an exception raised by [c] propagates.  Registered as
    the monadic bind, so that [x ← c; k] reads as two statements. *)
#[global] Instance result_bind : MBind result := λ A B k c,
  match c with
  | Return a => k a
  | Raise e => Raise e
  end.
#[global] Instance result_ret : MRet result := λ A a, Return a.

#[global] Instance Exception_eq_dec : EqDecision Exception.
Proof. solve_decision. Defined.

(** ** Rows, query sets and the two receivers of the mixins *)

(** A persisted record, reduced to the columns the filters read. *)
Record Item : Type := mkItem {
  pk : Z;
  is_published : bool;
  access_level : Z;
}.

#[global] Instance Item_eq_dec : EqDecision Item.
Proof. solve_decision. Defined.

(** A query set denotes the rows it would fetch, in fetch order. *)
Definition QuerySet : Type := list Item.

(** The mixins are mixed both into [QuerySet] subclasses and into
    [Manager] subclasses; [self] is one or the other.  A manager stands
    for the whole table of its model. *)
Inductive Self : Type :=
| OnQuerySet (qs : QuerySet)
| OnManager (table : QuerySet).

(** The rows [self] stands for: the collection the filters narrow. *)
Definition rows (self : Self) : QuerySet :=
  match self with
  | OnQuerySet qs => qs
  | OnManager table => table
  end.

(** Keyword arguments the mixins hand to [filter].  The bound of
    [access_level__lte] is the result of [dict.get], hence optional:
    [None] is Python's [None]. *)
Inductive Lookup : Type :=
| is_published_exact (v : bool)
| access_level__lte (v : option Z).

(** [QuerySet.filter] with one keyword argument.  Django rejects [None]
    as the value of every lookup other than [exact], [iexact] and
    [isnull], with [ValueError], when the filter is built. *)
Definition QuerySet_filter (qs : QuerySet) (kw : Lookup) : result QuerySet :=
  match kw with
  | is_published_exact v =>
      Return (filter (λ r, is_published r = v) qs)
  | access_level__lte (Some v) =>
      Return (filter (λ r, access_level r ≤ v) qs)
  | access_level__lte None => Raise ValueError
  end.

(** [self.get_query_set()]: defined by every manager class of the module
    as a fresh query set over the model; a [QuerySet] has no such
    attribute. *)
Definition get_query_set (self : Self) : result QuerySet :=
  match self with
  | OnManager table => Return table
  | OnQuerySet _ => Raise AttributeError
  end.

(** [self.filter]: [Manager.filter] is
    [self.get_query_set().filter]. *)
Definition self_filter (self : Self) (kw : Lookup) : result QuerySet :=
  match self with
  | OnQuerySet qs => QuerySet_filter qs kw
  | OnManager _ => qs ← get_query_set self; QuerySet_filter qs kw
  end.

(** ** PublishedMixin *)

Definition published (self : Self) : result QuerySet :=
  self_filter self (is_published_exact true).

(** ** ACLMixin *)

(** The argument of [access_level_up_to]: an instance of [int], or a
    tier name. *)
Inductive Level : Type :=
| PyInt (n : Z)
| PyStr (s : string).

(** [django.contrib.auth.models.Group], reduced to the columns read. *)
Record Group : Type := mkGroup {
  group_id : Z;
  group_name : string;
}.

#[global] Instance Group_eq_dec : EqDecision Group.
Proof. solve_decision. Defined.

(** What [accessible_to] reads from a user object.  [groups] lists the
    rows of [user.groups.all()], in no particular order. *)
Record User : Type := mkUser {
  is_superuser : bool;
  is_authenticated : bool;
  groups : list Group;
}.

(** [django.contrib.auth.models.AnonymousUser]. *)
Definition AnonymousUser : User :=
  {| is_superuser := false; is_authenticated := false; groups := [] |}.

(** The [user] argument of [accessible_to]: a user instance or an
    integer primary key. *)
Inductive UserArg : Type :=
| UserPk (user_pk : Z)
| UserObj (u : User).

(** The order ['-id']: larger identifiers first. *)
Definition minus_id (g1 g2 : Group) : Prop := group_id g2 ≤ group_id g1.

#[global] Instance minus_id_dec : RelDecision minus_id.
Proof. intros g1 g2. unfold minus_id. apply _. Defined.

(** [.order_by('-id')] on a query set of groups. *)
Definition order_by_minus_id (gs : list Group) : list Group :=
  merge_sort minus_id gs.

(** Indexing a query set with an integer fetches the rows into a list
    and indexes the list. *)
Definition getitem {A} (l : list A) (k : nat) : result A :=
  match l !! k with
  | Some x => Return x
  | None => Raise IndexError
  end.

Section ACLMixin.

(** [nodeshot.core.base.choices.ACCESS_LEVELS], a dict from tier name to
    rank.  Its definition lies outside this module. *)
Variable ACCESS_LEVELS : gmap string Z.

(** The command line, and the users table behind [User.objects]. *)
Variable sys_argv : list string.
Variable auth_user : gmap Z User.

(** The module binds the name [User] only when neither word is on the
    command line. *)
Definition User_is_bound : bool :=
  bool_decide ("synchronize" ∉ sys_argv) && bool_decide ("celery" ∉ sys_argv).

(** [User.objects.get(pk=user)]. *)
Definition User_objects_get (user_pk : Z) : result User :=
  if User_is_bound then
    match auth_user !! user_pk with
    | Some u => Return u
    | None => Raise DoesNotExist
    end
  else Raise NameError.

Definition access_level_up_to (self : Self) (access_level : Level)
  : result QuerySet :=
  let value :=
    match access_level with
    | PyInt n => Some n
    | PyStr s => ACCESS_LEVELS !! s
    end in
  self_filter self (access_level__lte value).

Definition accessible_to (self : Self) (user : UserArg) : result QuerySet :=
  user ← match user with
         | UserPk user_pk => User_objects_get user_pk
         | UserObj u => Return u
         end;
  if is_superuser user then
    match get_query_set self with
    | Raise AttributeError => Return (rows self)
    | queryset => queryset
    end
  else if is_authenticated user then
    group ← getitem (order_by_minus_id (groups user)) 0;
    self_filter self (access_level__lte (ACCESS_LEVELS !! group_name group))
  else
    self_filter self (access_level__lte (ACCESS_LEVELS !! "public")).

End ACLMixin.

(** ** ExtendedManagerMixin *)

Section ExtendedManagerMixin.

(** What an attribute evaluates to (a method, a property value). *)
Variable Object : Type.

(** The names [getattr(self.__class__, ...)] resolves on the manager's
    class, and the names [getattr] resolves on a query set object. *)
Variable class_namespace : gmap string Object.
Variable QuerySet_namespace : QuerySet → gmap string Object.

(** The builtin [getattr(o, name[, default])], on the namespace of [o];
    [args] is what is passed after the name. *)
Definition getattr (namespace : gmap string Object) (attr : string)
  (args : list Object) : result Object :=
  match args with
  | [] =>
      match namespace !! attr with
      | Some v => Return v
      | None => Raise AttributeError
      end
  | [dflt] => Return (default dflt (namespace !! attr))
  | _ => Raise TypeError
  end.

(** Python calls [__getattr__] with the name alone, after the regular
    lookup on the manager has failed. *)
Definition __getattr__ (self : Self) (attr : string) (args : list Object)
  : result Object :=
  match getattr class_namespace attr args with
  | Raise AttributeError =>
      qs ← get_query_set self; getattr (QuerySet_namespace qs) attr args
  | found => found
  end.

End ExtendedManagerMixin.

(** ** Sample data *)

(** The enumeration used as the running example of the specification. *)
Definition ACCESS_LEVELS_sample : gmap string Z :=
  <["public" := 0]> (<["community" := 10]> (<["member" := 20]>
    (<["admin" := 30]> ∅))).

Definition table_sample : QuerySet :=
  [ mkItem 1 true 0; mkItem 2 false 10; mkItem 3 true 20; mkItem 4 true 30 ].

Definition groups_sample : list Group :=
  [ mkGroup 1 "admin"; mkGroup 7 "community"; mkGroup 3 "member" ].

(** Attribute values of the sample: a function found on a class, or a
    method bound to a query set. *)
Inductive Attr : Type :=
| Function (qualname : string)
| BoundMethod (qualname : string) (im_self : QuerySet).

(** Some of the names [getattr] resolves on the class
    [AccessLevelManager]: its own method, the methods of [ACLMixin],
    proxies of [Manager], and [mro] from its metaclass. *)
Definition AccessLevelManager_namespace : gmap string Attr :=
  <["get_query_set" := Function "AccessLevelManager.get_query_set"]>
  (<["access_level_up_to" := Function "ACLMixin.access_level_up_to"]>
  (<["accessible_to" := Function "ACLMixin.accessible_to"]>
  (<["filter" := Function "Manager.filter"]>
  (<["mro" := Function "type.mro"]> ∅)))).

(** Some of the names resolved on an [AccessLevelQuerySet] object. *)
Definition AccessLevelQuerySet_namespace (qs : QuerySet) : gmap string Attr :=
  <["access_level_up_to" := BoundMethod "ACLMixin.access_level_up_to" qs]>
  (<["accessible_to" := BoundMethod "ACLMixin.accessible_to" qs]>
  (<["filter" := BoundMethod "QuerySet.filter" qs]>
  (<["delete" := BoundMethod "QuerySet.delete" qs]> ∅))).

(** ** The classes of the module *)

(** The classes the module imports and derives from. *)
Inductive External : Type :=
| django_QuerySet
| django_GeoQuerySet
| netfields_NetQuery
| hstore_HStoreQuerySet
| hstore_HStoreGeoQuerySet
| django_Manager
| django_GeoManager
| netfields_NetManager
| hstore_HStoreGeoManager.

Inductive Mixin : Type :=
| PublishedMixin
| ACLMixin
| ExtendedManagerMixin.

#[global] Instance External_eq_dec : EqDecision External.
Proof. solve_decision. Defined.

#[global] Instance Mixin_eq_dec : EqDecision Mixin.
Proof. solve_decision. Defined.

Inductive QuerySetClass : Type :=
| PublishedQuerySet
| GeoPublishedQuerySet
| AccessLevelQuerySet
| AccessLevelPublishedQuerySet
| NetAccessLevelQuerySet
| GeoAccessLevelPublishedQuerySet
| HStoreAccessLevelQuerySet
| HStoreGeoAccessLevelPublishedQuerySet.

Inductive ManagerClass : Type :=
| PublishedManager
| GeoPublishedManager
| AccessLevelManager
| NetAccessLevelManager
| AccessLevelPublishedManager
| GeoAccessLevelPublishedManager
| HStoreAccessLevelManager
| HStoreGeoAccessLevelPublishedManager.

#[global] Instance QuerySetClass_eq_dec : EqDecision QuerySetClass.
Proof. solve_decision. Defined.

#[global] Instance ManagerClass_eq_dec : EqDecision ManagerClass.
Proof. solve_decision. Defined.

(** The bases of each class statement, in the order written: one
    imported class, then mixins. *)
Definition QuerySetClass_bases (c : QuerySetClass) : External * list Mixin :=
  match c with
  | PublishedQuerySet => (django_QuerySet, [PublishedMixin])
  | GeoPublishedQuerySet => (django_GeoQuerySet, [PublishedMixin])
  | AccessLevelQuerySet => (django_QuerySet, [ACLMixin])
  | AccessLevelPublishedQuerySet =>
      (django_QuerySet, [ACLMixin; PublishedMixin])
  | NetAccessLevelQuerySet => (netfields_NetQuery, [ACLMixin])
  | GeoAccessLevelPublishedQuerySet =>
      (django_GeoQuerySet, [ACLMixin; PublishedMixin])
  | HStoreAccessLevelQuerySet => (hstore_HStoreQuerySet, [ACLMixin])
  | HStoreGeoAccessLevelPublishedQuerySet =>
      (hstore_HStoreGeoQuerySet, [ACLMixin; PublishedMixin])
  end.

Definition ManagerClass_bases (c : ManagerClass) : External * list Mixin :=
  match c with
  | PublishedManager =>
      (django_Manager, [ExtendedManagerMixin; PublishedMixin])
  | GeoPublishedManager =>
      (django_GeoManager, [ExtendedManagerMixin; PublishedMixin])
  | AccessLevelManager =>
      (django_Manager, [ExtendedManagerMixin; ACLMixin])
  | NetAccessLevelManager =>
      (netfields_NetManager, [ExtendedManagerMixin; ACLMixin])
  | AccessLevelPublishedManager =>
      (django_Manager, [ExtendedManagerMixin; ACLMixin; PublishedMixin])
  | GeoAccessLevelPublishedManager =>
      (django_GeoManager, [ExtendedManagerMixin; ACLMixin; PublishedMixin])
  | HStoreAccessLevelManager =>
      (hstore_HStoreGeoManager, [ExtendedManagerMixin; ACLMixin])
  | HStoreGeoAccessLevelPublishedManager =>
      (hstore_HStoreGeoManager,
       [ExtendedManagerMixin; ACLMixin; PublishedMixin])
  end.

(** The class each manager's [get_query_set] instantiates. *)
Definition get_query_set_class (c : ManagerClass) : QuerySetClass :=
  match c with
  | PublishedManager => PublishedQuerySet
  | GeoPublishedManager => GeoPublishedQuerySet
  | AccessLevelManager => AccessLevelQuerySet
  | NetAccessLevelManager => AccessLevelQuerySet
  | AccessLevelPublishedManager => AccessLevelPublishedQuerySet
  | GeoAccessLevelPublishedManager => GeoAccessLevelPublishedQuerySet
  | HStoreAccessLevelManager => HStoreAccessLevelQuerySet
  | HStoreGeoAccessLevelPublishedManager =>
      HStoreGeoAccessLevelPublishedQuerySet
  end.

(** The methods each mixin defines. *)
Definition Mixin_methods (m : Mixin) : list string :=
  match m with
  | PublishedMixin => ["published"]
  | ACLMixin => ["access_level_up_to"; "accessible_to"]
  | ExtendedManagerMixin => ["__getattr__"]
  end.

(** [settings.NODESHOT['SETTINGS'].get('HSTORE', True)]. *)
Definition HSTORE_ENABLED (SETTINGS : gmap string bool) : bool :=
  default true (SETTINGS !! "HSTORE").

(** The two [if HSTORE_ENABLED:] blocks: which class statements run. *)
Definition QuerySetClass_defined (hstore : bool) (c : QuerySetClass) : bool :=
  match c with
  | HStoreAccessLevelQuerySet
  | HStoreGeoAccessLevelPublishedQuerySet => hstore
  | _ => true
  end.

Definition ManagerClass_defined (hstore : bool) (c : ManagerClass) : bool :=
  match c with
  | HStoreAccessLevelManager
  | HStoreGeoAccessLevelPublishedManager => hstore
  | _ => true
  end.

(** More sample data: a user whose newest group is no tier. *)
Definition groups_editors : list Group :=
  [ mkGroup 1 "admin"; mkGroup 9 "editors" ].

(** The methods a list of mixins contributes to a class. *)
Definition Mixins_methods (ms : list Mixin) : list string :=
  ms ≫= Mixin_methods.

(** A users table: a superuser, and a member of [groups_sample]. *)
Definition auth_user_sample : gmap Z User :=
  <[1 := mkUser true true []]> (<[2 := mkUser false true groups_sample]> ∅).

(** * Properties *)

(** ** The modelled query-set interface *)

Lemma bind_Return {A B} (a : A) (k : A → result B) : (Return a ≫= k) = k a.
Proof. reflexivity. Qed.

Lemma self_filter_rows (self : Self) (kw : Lookup) :
  self_filter self kw = QuerySet_filter (rows self) kw.
Proof. destruct self; reflexivity. Qed.

Lemma filter_nil_iff {A} (P : A → Prop) `{!∀ x, Decision (P x)} (l : list A) :
  filter P l = [] ↔ ∀ x, x ∈ l → ¬ P x.
Proof.
  induction l as [|a l IH].
  - split; [intros _ x Hx; inversion Hx | reflexivity].
  - rewrite filter_cons. destruct (decide (P a)) as [Ha|Ha].
    + split; [discriminate|].
      intros Hall. destruct (Hall a); [left | exact Ha].
    + rewrite IH. split.
      * intros Hall x Hx. apply elem_of_cons in Hx as [->|Hx]; auto.
      * intros Hall x Hx. apply Hall. by right.
Qed.

Lemma filter_swap {A} (P Q : A → Prop)
  `{!∀ x, Decision (P x)} `{!∀ x, Decision (Q x)} (l : list A) :
  filter Q (filter P l) = filter P (filter Q l).
Proof.
  induction l as [|a l IH]; [reflexivity|].
  destruct (decide (P a)) as [HP|HP], (decide (Q a)) as [HQ|HQ];
    repeat first [ rewrite (filter_cons_True P) by exact HP
                 | rewrite (filter_cons_True Q) by exact HQ
                 | rewrite (filter_cons_False P) by exact HP
                 | rewrite (filter_cons_False Q) by exact HQ ];
    by rewrite IH.
Qed.

(** ** PublishedMixin.published *)

(** C2: [published] returns, without failing, exactly the rows of the
    collection whose [is_published] is true, and the empty query set
    exactly when no row is published. *)
Theorem published_exactly_is_published (self : Self) :
  ∃ qs : QuerySet,
    published self = Return qs
    ∧ qs = filter (λ r, is_published r = true) (rows self)
    ∧ (∀ R : Item, R ∈ qs ↔ R ∈ rows self ∧ is_published R = true)
    ∧ (qs = [] ↔ ∀ R : Item, R ∈ rows self → is_published R ≠ true).
Proof.
  exists (filter (λ r, is_published r = true) (rows self)).
  split; [|split; [|split]].
  - unfold published. by rewrite self_filter_rows.
  - reflexivity.
  - intros R. rewrite list_elem_of_filter. tauto.
  - apply filter_nil_iff.
Qed.

(** ** ACLMixin.access_level_up_to *)

Lemma access_level_up_to_filter ACCESS_LEVELS (self : Self) (level : Level) :
  access_level_up_to ACCESS_LEVELS self level
  = QuerySet_filter (rows self)
      (access_level__lte match level with
                         | PyInt n => Some n
                         | PyStr s => ACCESS_LEVELS !! s
                         end).
Proof. unfold access_level_up_to. apply self_filter_rows. Qed.

(** C1: when the level is the rank [N], or a tier name that
    [ACCESS_LEVELS] maps to [N], [access_level_up_to] returns exactly the
    rows of the collection with [access_level <= N]; rows at rank [N]
    itself are kept. *)
Theorem access_level_up_to_inclusive
  (ACCESS_LEVELS : gmap string Z) (self : Self) (level : Level) (N : Z) :
  level = PyInt N
  ∨ (∃ name, level = PyStr name ∧ ACCESS_LEVELS !! name = Some N) →
  ∃ qs : QuerySet,
    access_level_up_to ACCESS_LEVELS self level = Return qs
    ∧ (∀ R : Item, R ∈ qs ↔ R ∈ rows self ∧ access_level R ≤ N)
    ∧ (∀ R : Item, R ∈ rows self → access_level R = N → R ∈ qs).
Proof.
  intros Hlevel.
  exists (filter (λ r, access_level r ≤ N) (rows self)).
  split; [|split].
  - rewrite access_level_up_to_filter.
    destruct Hlevel as [->|(name & -> & ->)]; reflexivity.
  - intros R. rewrite list_elem_of_filter. tauto.
  - intros R HR HN. apply list_elem_of_filter. split; [lia | exact HR].
Qed.

Lemma access_level_up_to_inclusive_witness :
  (PyStr "member" = PyInt 20
   ∨ ∃ name, PyStr "member" = PyStr name
             ∧ ACCESS_LEVELS_sample !! name = Some 20)
  ∧ ∃ qs : QuerySet,
      access_level_up_to ACCESS_LEVELS_sample (OnManager table_sample)
        (PyStr "member") = Return qs
      ∧ (∀ R : Item, R ∈ qs ↔ R ∈ rows (OnManager table_sample)
                                ∧ access_level R ≤ 20)
      ∧ (∀ R : Item, R ∈ rows (OnManager table_sample) →
                     access_level R = 20 → R ∈ qs).
Proof.
  assert (Hlevel : PyStr "member" = PyInt 20
                   ∨ ∃ name, PyStr "member" = PyStr name
                             ∧ ACCESS_LEVELS_sample !! name = Some 20).
  { right. exists "member". split; reflexivity. }
  split; [exact Hlevel|].
  exact (access_level_up_to_inclusive ACCESS_LEVELS_sample
           (OnManager table_sample) (PyStr "member") 20 Hlevel).
Defined.

(** The example of the specification: at "member", ranks 0, 10 and 20
    are returned and rank 30 is not. *)
Example access_level_up_to_member :
  access_level_up_to ACCESS_LEVELS_sample (OnManager table_sample)
    (PyStr "member")
  = Return [ mkItem 1 true 0; mkItem 2 false 10; mkItem 3 true 20 ].
Proof. reflexivity. Qed.

(** C10: an integer level is used as the bound as it is.
    [ACCESS_LEVELS] is not consulted, so whatever the enumeration and
    whatever the integer, the call returns the rows with
    [access_level <= n]. *)
Theorem access_level_up_to_int_unvalidated
  (ACCESS_LEVELS : gmap string Z) (self : Self) (n : Z) :
  access_level_up_to ACCESS_LEVELS self (PyInt n)
  = Return (filter (λ r, access_level r ≤ n) (rows self))
  ∧ access_level_up_to ACCESS_LEVELS self (PyInt n)
    = access_level_up_to ∅ self (PyInt n)
  ∧ ∀ R : Item,
      R ∈ filter (λ r, access_level r ≤ n) (rows self)
      ↔ R ∈ rows self ∧ access_level R ≤ n.
Proof.
  split; [|split].
  - by rewrite access_level_up_to_filter.
  - by rewrite !access_level_up_to_filter.
  - intros R. rewrite list_elem_of_filter. tauto.
Qed.

(** Ranks that no tier has: between two tiers, and below all of them. *)
Example access_level_up_to_between_tiers :
  access_level_up_to ACCESS_LEVELS_sample (OnQuerySet table_sample) (PyInt 15)
  = Return [ mkItem 1 true 0; mkItem 2 false 10 ].
Proof. reflexivity. Qed.

Example access_level_up_to_negative :
  access_level_up_to ACCESS_LEVELS_sample (OnQuerySet table_sample) (PyInt (-5))
  = Return [].
Proof. reflexivity. Qed.

(** No call of [access_level_up_to] ends in [UnknownTierError]. *)
Lemma access_level_up_to_never_UnknownTierError
  (ACCESS_LEVELS : gmap string Z) (self : Self) (level : Level) :
  access_level_up_to ACCESS_LEVELS self level ≠ Raise UnknownTierError.
Proof.
  rewrite access_level_up_to_filter.
  destruct level as [n|s]; [discriminate|].
  destruct (ACCESS_LEVELS !! s); discriminate.
Qed.

(** C3, as the code has it: a name that is not a key of [ACCESS_LEVELS]
    resolves to [None] without an error ([dict.get]); the call is then
    [filter(access_level__lte=None)], which the query layer rejects with
    [ValueError]. *)
Theorem access_level_up_to_unknown_name
  (ACCESS_LEVELS : gmap string Z) (self : Self) (name : string) :
  ACCESS_LEVELS !! name = None →
  access_level_up_to ACCESS_LEVELS self (PyStr name)
  = self_filter self (access_level__lte None)
  ∧ access_level_up_to ACCESS_LEVELS self (PyStr name) = Raise ValueError.
Proof.
  intros Hname. unfold access_level_up_to. rewrite Hname.
  split; [reflexivity|]. by rewrite self_filter_rows.
Qed.

Lemma access_level_up_to_unknown_name_witness :
  ACCESS_LEVELS_sample !! "galactic-admin" = None
  ∧ access_level_up_to ACCESS_LEVELS_sample (OnManager table_sample)
      (PyStr "galactic-admin")
    = self_filter (OnManager table_sample) (access_level__lte None)
  ∧ access_level_up_to ACCESS_LEVELS_sample (OnManager table_sample)
      (PyStr "galactic-admin") = Raise ValueError.
Proof.
  split; [reflexivity|].
  apply (access_level_up_to_unknown_name ACCESS_LEVELS_sample
           (OnManager table_sample) "galactic-admin").
  reflexivity.
Defined.

(** C3, as the specification has it, fails on the name it gives as an
    example: the name is no tier, and the call does not end in
    [UnknownTierError]. *)
Lemma access_level_up_to_galactic_admin :
  ACCESS_LEVELS_sample !! "galactic-admin" = None
  ∧ access_level_up_to ACCESS_LEVELS_sample (OnManager table_sample)
      (PyStr "galactic-admin") ≠ Raise UnknownTierError.
Proof. split; [reflexivity | discriminate]. Qed.

(** ** published and access_level_up_to together *)

Lemma QuerySet_filter_commute (qs : QuerySet) (kw1 kw2 : Lookup) :
  (qs1 ← QuerySet_filter qs kw1; QuerySet_filter qs1 kw2)
  = (qs2 ← QuerySet_filter qs kw2; QuerySet_filter qs2 kw1).
Proof.
  destruct kw1 as [v1|[v1|]], kw2 as [v2|[v2|]];
    unfold mbind, result_bind; simpl; try reflexivity;
    f_equal; apply filter_swap.
Qed.

(** Chaining in either order gives the same outcome, for every level
    argument: the same rows in the same order, or the same exception. *)
Lemma published_access_level_up_to_chain
  (ACCESS_LEVELS : gmap string Z) (self : Self) (level : Level) :
  (qs ← published self;
   access_level_up_to ACCESS_LEVELS (OnQuerySet qs) level)
  = (qs ← access_level_up_to ACCESS_LEVELS self level;
     published (OnQuerySet qs)).
Proof.
  unfold published, access_level_up_to.
  rewrite !(self_filter_rows self).
  apply (QuerySet_filter_commute (rows self)).
Qed.

(** C8: for a rank [N], [published] followed by [access_level_up_to N]
    and [access_level_up_to N] followed by [published] return the same
    query set: the rows that are both published and at most at rank
    [N]. *)
Theorem published_access_level_up_to_commute
  (ACCESS_LEVELS : gmap string Z) (self : Self) (N : Z) :
  ∃ qs : QuerySet,
    (q ← published self;
     access_level_up_to ACCESS_LEVELS (OnQuerySet q) (PyInt N)) = Return qs
    ∧ (q ← access_level_up_to ACCESS_LEVELS self (PyInt N);
       published (OnQuerySet q)) = Return qs
    ∧ ∀ R : Item,
        R ∈ qs ↔ R ∈ rows self ∧ is_published R = true ∧ access_level R ≤ N.
Proof.
  exists (filter (λ r, access_level r ≤ N)
            (filter (λ r, is_published r = true) (rows self))).
  split; [|split].
  - unfold published, access_level_up_to. by rewrite self_filter_rows.
  - rewrite <- published_access_level_up_to_chain.
    unfold published, access_level_up_to. by rewrite self_filter_rows.
  - intros R. rewrite !list_elem_of_filter. tauto.
Qed.

(** ** ACLMixin.accessible_to *)

#[local] Instance minus_id_transitive : Transitive minus_id.
Proof. intros g1 g2 g3. unfold minus_id. lia. Qed.

#[local] Instance minus_id_total : Total minus_id.
Proof. intros g1 g2. unfold minus_id. lia. Qed.

Lemma group_id_inj_on (gs : list Group) (g1 g2 : Group) :
  NoDup (group_id <$> gs) → g1 ∈ gs → g2 ∈ gs →
  group_id g1 = group_id g2 → g1 = g2.
Proof.
  induction gs as [|g gs IH]; [by intros _ H1; inversion H1|].
  rewrite fmap_cons, NoDup_cons, !elem_of_cons.
  intros [Hg Hnd] [->|H1] [->|H2] Hid; auto.
  - destruct Hg. rewrite Hid. by apply list_elem_of_fmap_2.
  - destruct Hg. rewrite <- Hid. by apply list_elem_of_fmap_2.
Qed.

(** The first row of [order_by('-id')] is a row of the input, and no row
    of the input has a larger identifier. *)
Lemma order_by_minus_id_first (gs : list Group) :
  gs ≠ [] →
  ∃ g, getitem (order_by_minus_id gs) 0 = Return g
       ∧ g ∈ gs
       ∧ ∀ g', g' ∈ gs → group_id g' ≤ group_id g.
Proof.
  intros Hne. unfold order_by_minus_id, getitem.
  pose proof (merge_sort_Permutation minus_id gs) as Hperm.
  pose proof (StronglySorted_merge_sort minus_id gs) as Hsorted.
  destruct (merge_sort minus_id gs) as [|g l].
  - symmetry in Hperm. apply Permutation_nil_r in Hperm. contradiction.
  - exists g. split; [reflexivity|]. split.
    + rewrite <- Hperm. by left.
    + intros g' Hg'. rewrite <- Hperm in Hg'.
      apply StronglySorted_cons in Hsorted as [Hall _].
      apply elem_of_cons in Hg' as [->|Hg']; [lia|].
      rewrite Forall_forall in Hall. by apply Hall.
Qed.

Section accessible_to.

Variable ACCESS_LEVELS : gmap string Z.
Variable sys_argv : list string.
Variable auth_user : gmap Z User.

Lemma accessible_to_superuser (self : Self) (u : User) :
  is_superuser u = true →
  accessible_to ACCESS_LEVELS sys_argv auth_user self (UserObj u)
  = Return (rows self).
Proof.
  intros Hsu. unfold accessible_to.
  rewrite bind_Return, Hsu. by destruct self.
Qed.

Lemma accessible_to_authenticated (self : Self) (u : User) :
  is_superuser u = false → is_authenticated u = true →
  accessible_to ACCESS_LEVELS sys_argv auth_user self (UserObj u)
  = (group ← getitem (order_by_minus_id (groups u)) 0;
     self_filter self (access_level__lte (ACCESS_LEVELS !! group_name group))).
Proof.
  intros Hsu Hauth. unfold accessible_to.
  by rewrite bind_Return, Hsu, Hauth.
Qed.

(** An integer argument is first resolved through [User.objects]. *)
Lemma accessible_to_pk (self : Self) (user_pk : Z) (u : User) :
  User_objects_get sys_argv auth_user user_pk = Return u →
  accessible_to ACCESS_LEVELS sys_argv auth_user self (UserPk user_pk)
  = accessible_to ACCESS_LEVELS sys_argv auth_user self (UserObj u).
Proof.
  intros Hget. unfold accessible_to. by rewrite Hget.
Qed.

(** C4: for a superuser, [accessible_to] returns the whole collection:
    the manager's query set over all rows of the model, or the query set
    it was called on. *)
Theorem accessible_to_superuser_unfiltered (self : Self) (u : User) :
  is_superuser u = true →
  accessible_to ACCESS_LEVELS sys_argv auth_user self (UserObj u)
  = Return (rows self)
  ∧ ∀ R : Item, R ∈ rows self →
      ∃ qs, accessible_to ACCESS_LEVELS sys_argv auth_user self (UserObj u)
            = Return qs ∧ R ∈ qs.
Proof.
  intros Hsu. pose proof (accessible_to_superuser self u Hsu) as Heq.
  split; [exact Heq|]. intros R HR. by exists (rows self).
Qed.

(** C5: for an authenticated user who is no superuser, whose groups
    have distinct identifiers, [accessible_to] filters at the rank that
    [ACCESS_LEVELS] gives to the name of the group with the largest
    identifier, whatever the ranks of the user's other groups. *)
Theorem accessible_to_highest_group_id
  (self : Self) (u : User) (g : Group) (n : Z) :
  is_superuser u = false →
  is_authenticated u = true →
  NoDup (group_id <$> groups u) →
  g ∈ groups u →
  (∀ g', g' ∈ groups u → group_id g' ≤ group_id g) →
  ACCESS_LEVELS !! group_name g = Some n →
  ∃ qs : QuerySet,
    accessible_to ACCESS_LEVELS sys_argv auth_user self (UserObj u) = Return qs
    ∧ access_level_up_to ACCESS_LEVELS self (PyInt n) = Return qs
    ∧ ∀ R : Item, R ∈ qs ↔ R ∈ rows self ∧ access_level R ≤ n.
Proof.
  intros Hsu Hauth Hnodup Hg Hmax Hrank.
  exists (filter (λ r, access_level r ≤ n) (rows self)).
  split; [|split].
  - rewrite (accessible_to_authenticated self u Hsu Hauth).
    destruct (order_by_minus_id_first (groups u)) as (g0 & -> & Hg0 & Hmax0).
    { intros Hnil. rewrite Hnil in Hg. inversion Hg. }
    assert (g0 = g) as ->.
    { apply (group_id_inj_on (groups u)); auto.
      specialize (Hmax g0 Hg0). specialize (Hmax0 g Hg). lia. }
    by rewrite bind_Return, Hrank, self_filter_rows.
  - by rewrite access_level_up_to_filter.
  - intros R. rewrite list_elem_of_filter. tauto.
Qed.

(** C7: for an authenticated user who is no superuser and has no
    group, [accessible_to] ends in [IndexError]; that is not the outcome
    of filtering at the public tier. *)
Theorem accessible_to_no_groups (self : Self) (u : User) :
  is_superuser u = false →
  is_authenticated u = true →
  groups u = [] →
  accessible_to ACCESS_LEVELS sys_argv auth_user self (UserObj u)
  = Raise IndexError
  ∧ accessible_to ACCESS_LEVELS sys_argv auth_user self (UserObj u)
    ≠ access_level_up_to ACCESS_LEVELS self (PyStr "public").
Proof.
  intros Hsu Hauth Hgroups.
  rewrite (accessible_to_authenticated self u Hsu Hauth), Hgroups.
  split; [reflexivity|].
  rewrite access_level_up_to_filter.
  destruct (ACCESS_LEVELS !! "public"); discriminate.
Qed.

(** C6: for a user who is neither superuser nor authenticated,
    [accessible_to] is [access_level_up_to] at the name "public": the
    rows at most at the rank of that tier. *)
Theorem accessible_to_anonymous (self : Self) (u : User) :
  is_superuser u = false →
  is_authenticated u = false →
  accessible_to ACCESS_LEVELS sys_argv auth_user self (UserObj u)
  = access_level_up_to ACCESS_LEVELS self (PyStr "public")
  ∧ ∀ n : Z, ACCESS_LEVELS !! "public" = Some n →
      accessible_to ACCESS_LEVELS sys_argv auth_user self (UserObj u)
      = Return (filter (λ r, access_level r ≤ n) (rows self)).
Proof.
  intros Hsu Hauth.
  assert (accessible_to ACCESS_LEVELS sys_argv auth_user self (UserObj u)
          = self_filter self (access_level__lte (ACCESS_LEVELS !! "public")))
    as Heq.
  { unfold accessible_to. by rewrite bind_Return, Hsu, Hauth. }
  split; [exact Heq|].
  intros n Hn. by rewrite Heq, Hn, self_filter_rows.
Qed.

End accessible_to.

Lemma accessible_to_superuser_unfiltered_witness :
  is_superuser (mkUser true true []) = true
  ∧ accessible_to ACCESS_LEVELS_sample [] ∅ (OnManager table_sample)
      (UserObj (mkUser true true [])) = Return table_sample.
Proof.
  split; [reflexivity|].
  apply (accessible_to_superuser_unfiltered ACCESS_LEVELS_sample [] ∅
           (OnManager table_sample) (mkUser true true [])).
  reflexivity.
Defined.

(** A user in the groups "admin" (id 1), "community" (id 7) and
    "member" (id 3) is served at the rank of "community". *)
Lemma accessible_to_highest_group_id_witness :
  NoDup (group_id <$> groups_sample)
  ∧ mkGroup 7 "community" ∈ groups_sample
  ∧ (∀ g', g' ∈ groups_sample → group_id g' ≤ 7)
  ∧ ACCESS_LEVELS_sample !! "community" = Some 10
  ∧ ∃ qs : QuerySet,
      accessible_to ACCESS_LEVELS_sample [] ∅ (OnQuerySet table_sample)
        (UserObj (mkUser false true groups_sample)) = Return qs
      ∧ access_level_up_to ACCESS_LEVELS_sample (OnQuerySet table_sample)
          (PyInt 10) = Return qs
      ∧ ∀ R : Item,
          R ∈ qs ↔ R ∈ rows (OnQuerySet table_sample) ∧ access_level R ≤ 10.
Proof.
  assert (Hnodup : NoDup (group_id <$> groups_sample)).
  { apply (bool_decide_unpack _). vm_compute. exact I. }
  assert (Hin : mkGroup 7 "community" ∈ groups_sample).
  { apply (bool_decide_unpack _). vm_compute. exact I. }
  assert (Hmax : ∀ g', g' ∈ groups_sample → group_id g' ≤ 7).
  { apply Forall_forall. apply (bool_decide_unpack _). vm_compute. exact I. }
  assert (Hrank : ACCESS_LEVELS_sample !! "community" = Some 10)
    by reflexivity.
  repeat (split; [assumption|]).
  exact (accessible_to_highest_group_id ACCESS_LEVELS_sample [] ∅
           (OnQuerySet table_sample) (mkUser false true groups_sample)
           (mkGroup 7 "community") 10
           eq_refl eq_refl Hnodup Hin Hmax Hrank).
Defined.

Example accessible_to_groups_sample :
  accessible_to ACCESS_LEVELS_sample [] ∅ (OnQuerySet table_sample)
    (UserObj (mkUser false true groups_sample))
  = Return [ mkItem 1 true 0; mkItem 2 false 10 ].
Proof. reflexivity. Qed.

Lemma accessible_to_no_groups_witness :
  is_superuser (mkUser false true []) = false
  ∧ is_authenticated (mkUser false true []) = true
  ∧ groups (mkUser false true []) = []
  ∧ accessible_to ACCESS_LEVELS_sample [] ∅ (OnManager table_sample)
      (UserObj (mkUser false true [])) = Raise IndexError
  ∧ accessible_to ACCESS_LEVELS_sample [] ∅ (OnManager table_sample)
      (UserObj (mkUser false true []))
    ≠ access_level_up_to ACCESS_LEVELS_sample (OnManager table_sample)
        (PyStr "public").
Proof.
  do 3 (split; [reflexivity|]).
  exact (accessible_to_no_groups ACCESS_LEVELS_sample [] ∅
           (OnManager table_sample) (mkUser false true [])
           eq_refl eq_refl eq_refl).
Defined.

Lemma accessible_to_anonymous_witness :
  is_superuser AnonymousUser = false
  ∧ is_authenticated AnonymousUser = false
  ∧ accessible_to ACCESS_LEVELS_sample [] ∅ (OnManager table_sample)
      (UserObj AnonymousUser)
    = access_level_up_to ACCESS_LEVELS_sample (OnManager table_sample)
        (PyStr "public").
Proof.
  do 2 (split; [reflexivity|]).
  exact (proj1 (accessible_to_anonymous ACCESS_LEVELS_sample [] ∅
                  (OnManager table_sample) AnonymousUser eq_refl eq_refl)).
Defined.

Example accessible_to_anonymous_sample :
  accessible_to ACCESS_LEVELS_sample [] ∅ (OnManager table_sample)
    (UserObj AnonymousUser)
  = Return [ mkItem 1 true 0 ].
Proof. reflexivity. Qed.

(** ** ExtendedManagerMixin.__getattr__ *)

Section forwarding.

Context {Object : Type}.
Variable class_namespace : gmap string Object.
Variable QuerySet_namespace : QuerySet → gmap string Object.

(** A name the class resolves is answered by the class. *)
Lemma getattr_class_first (self : Self) (attr : string) (v : Object) :
  class_namespace !! attr = Some v →
  __getattr__ Object class_namespace QuerySet_namespace self attr []
  = Return v.
Proof. intros Hattr. unfold __getattr__, getattr. by rewrite Hattr. Qed.

(** With a default after the name, the class lookup cannot fail and the
    query set is never consulted. *)
Lemma getattr_default_no_forward (self : Self) (attr : string) (d : Object) :
  __getattr__ Object class_namespace QuerySet_namespace self attr [d]
  = Return (default d (class_namespace !! attr)).
Proof. reflexivity. Qed.

(** C9: for a name the manager's class does not resolve, the lookup on
    the manager is the lookup of that name on [self.get_query_set()]:
    the same attribute when the query set has it, the same
    [AttributeError] when it has not. *)
Theorem getattr_forwards_to_query_set (table : QuerySet) (attr : string) :
  class_namespace !! attr = None →
  __getattr__ Object class_namespace QuerySet_namespace
    (OnManager table) attr []
  = (qs ← get_query_set (OnManager table);
     getattr Object (QuerySet_namespace qs) attr [])
  ∧ __getattr__ Object class_namespace QuerySet_namespace
      (OnManager table) attr []
    = getattr Object (QuerySet_namespace table) attr [].
Proof.
  intros Hattr. unfold __getattr__.
  assert (getattr Object class_namespace attr [] = Raise AttributeError)
    as -> by (unfold getattr; by rewrite Hattr).
  split; reflexivity.
Qed.

End forwarding.

Lemma getattr_forwards_to_query_set_witness :
  AccessLevelManager_namespace !! "delete" = None
  ∧ __getattr__ Attr AccessLevelManager_namespace
      AccessLevelQuerySet_namespace (OnManager table_sample) "delete" []
    = getattr Attr (AccessLevelQuerySet_namespace table_sample) "delete" [].
Proof.
  split; [reflexivity|].
  exact (proj2 (getattr_forwards_to_query_set AccessLevelManager_namespace
                  AccessLevelQuerySet_namespace table_sample "delete"
                  eq_refl)).
Defined.

(** [Manager] has no [delete]; through the mixin the manager answers
    with the query set's. *)
Example getattr_delete :
  __getattr__ Attr AccessLevelManager_namespace
    AccessLevelQuerySet_namespace (OnManager table_sample) "delete" []
  = Return (BoundMethod "QuerySet.delete" table_sample).
Proof. reflexivity. Qed.

(** A name neither side has fails as it does on the query set. *)
Example getattr_published :
  __getattr__ Attr AccessLevelManager_namespace
    AccessLevelQuerySet_namespace (OnManager table_sample) "published" []
  = Raise AttributeError.
Proof. reflexivity. Qed.

(** A name of the metaclass is answered by the class. *)
Example getattr_mro :
  __getattr__ Attr AccessLevelManager_namespace
    AccessLevelQuerySet_namespace (OnManager table_sample) "mro" []
  = Return (Function "type.mro").
Proof. reflexivity. Qed.

(** ** Further properties of the filters *)

Lemma filter_idemp {A} (P : A → Prop) `{!∀ x, Decision (P x)} (l : list A) :
  filter P (filter P l) = filter P l.
Proof.
  induction l as [|a l IH]; [reflexivity|].
  destruct (decide (P a)) as [HP|HP].
  - rewrite (filter_cons_True P) by exact HP.
    rewrite (filter_cons_True P) by exact HP. by rewrite IH.
  - by rewrite (filter_cons_False P) by exact HP.
Qed.

Lemma filter_id_iff {A} (P : A → Prop) `{!∀ x, Decision (P x)} (l : list A) :
  filter P l = l ↔ Forall P l.
Proof.
  split.
  - intros Heq. apply Forall_forall. intros x Hx.
    rewrite <- Heq in Hx. by apply list_elem_of_filter in Hx as [HP _].
  - induction 1 as [|a l Ha _ IH]; [reflexivity|].
    rewrite (filter_cons_True P) by exact Ha. by rewrite IH.
Qed.

Lemma filter_filter_both {A} (P Q R : A → Prop)
  `{!∀ x, Decision (P x)} `{!∀ x, Decision (Q x)} `{!∀ x, Decision (R x)}
  (l : list A) :
  (∀ x, R x ↔ P x ∧ Q x) → filter Q (filter P l) = filter R l.
Proof.
  intros HR. induction l as [|a l IH]; [reflexivity|].
  destruct (decide (P a)) as [HP|HP].
  - rewrite (filter_cons_True P) by exact HP.
    destruct (decide (Q a)) as [HQ|HQ].
    + rewrite (filter_cons_True Q) by exact HQ.
      rewrite (filter_cons_True R) by (apply HR; by split).
      by rewrite IH.
    + rewrite (filter_cons_False Q) by exact HQ.
      rewrite (filter_cons_False R) by (rewrite HR; tauto).
      exact IH.
  - rewrite (filter_cons_False P) by exact HP.
    rewrite (filter_cons_False R) by (rewrite HR; tauto).
    exact IH.
Qed.

Lemma QuerySet_filter_idemp (qs : QuerySet) (kw : Lookup) :
  (q ← QuerySet_filter qs kw; QuerySet_filter q kw) = QuerySet_filter qs kw.
Proof.
  destruct kw as [v|[v|]]; unfold mbind, result_bind; simpl;
    try reflexivity; f_equal; apply filter_idemp.
Qed.

Lemma QuerySet_filter_sublist (qs q : QuerySet) (kw : Lookup) :
  QuerySet_filter qs kw = Return q → q `sublist_of` qs.
Proof.
  destruct kw as [v|[v|]]; simpl; intros Heq; inversion Heq; subst;
    apply sublist_filter.
Qed.

(** X1: [published] applied to its own result changes nothing. *)
Theorem published_idempotent (self : Self) :
  (qs ← published self; published (OnQuerySet qs)) = published self.
Proof.
  unfold published. rewrite !(self_filter_rows self).
  apply (QuerySet_filter_idemp (rows self)).
Qed.

(** X2: [access_level_up_to] applied twice with the same level is the
    same as applied once, whether it returns or raises. *)
Theorem access_level_up_to_idempotent
  (ACCESS_LEVELS : gmap string Z) (self : Self) (level : Level) :
  (qs ← access_level_up_to ACCESS_LEVELS self level;
   access_level_up_to ACCESS_LEVELS (OnQuerySet qs) level)
  = access_level_up_to ACCESS_LEVELS self level.
Proof.
  unfold access_level_up_to. rewrite !(self_filter_rows self).
  apply (QuerySet_filter_idemp (rows self)).
Qed.

(** X3: filtering at rank [n] and then at rank [m] is filtering at the
    smaller of the two; in particular a later, higher bound never brings
    rows back. *)
Theorem access_level_up_to_narrows
  (ACCESS_LEVELS : gmap string Z) (self : Self) (n m : Z) :
  (qs ← access_level_up_to ACCESS_LEVELS self (PyInt n);
   access_level_up_to ACCESS_LEVELS (OnQuerySet qs) (PyInt m))
  = access_level_up_to ACCESS_LEVELS self (PyInt (n `min` m)).
Proof.
  rewrite !access_level_up_to_filter. unfold mbind, result_bind. simpl.
  f_equal. apply filter_filter_both. intros r. lia.
Qed.

(** X4: [access_level_up_to n] returns the collection unchanged exactly
    when no row of it has an access level above [n]. *)
Theorem access_level_up_to_identity_iff
  (ACCESS_LEVELS : gmap string Z) (self : Self) (n : Z) :
  access_level_up_to ACCESS_LEVELS self (PyInt n) = Return (rows self)
  ↔ ∀ R : Item, R ∈ rows self → access_level R ≤ n.
Proof.
  rewrite access_level_up_to_filter. unfold QuerySet_filter.
  rewrite <- Forall_forall, <- (filter_id_iff (λ r, access_level r ≤ n)).
  split; [intros [= Heq]; exact Heq | intros Heq; f_equal; exact Heq].
Qed.

(** X5: whatever the level, a query set returned by
    [access_level_up_to] or [published] holds rows of the collection
    only, in the order of the collection. *)
Theorem filters_return_sublist
  (ACCESS_LEVELS : gmap string Z) (self : Self) (level : Level)
  (qs : QuerySet) :
  access_level_up_to ACCESS_LEVELS self level = Return qs
  ∨ published self = Return qs →
  qs `sublist_of` rows self.
Proof.
  unfold published. rewrite access_level_up_to_filter, self_filter_rows.
  intros [Heq|Heq]; by apply QuerySet_filter_sublist in Heq.
Qed.

Lemma filters_return_sublist_witness :
  (access_level_up_to ACCESS_LEVELS_sample (OnManager table_sample)
     (PyStr "member")
   = Return [ mkItem 1 true 0; mkItem 2 false 10; mkItem 3 true 20 ]
   ∨ published (OnManager table_sample)
     = Return [ mkItem 1 true 0; mkItem 2 false 10; mkItem 3 true 20 ])
  ∧ [ mkItem 1 true 0; mkItem 2 false 10; mkItem 3 true 20 ]
    `sublist_of` rows (OnManager table_sample).
Proof.
  assert (H : access_level_up_to ACCESS_LEVELS_sample (OnManager table_sample)
                (PyStr "member")
              = Return [ mkItem 1 true 0; mkItem 2 false 10; mkItem 3 true 20 ]
              ∨ published (OnManager table_sample)
                = Return [ mkItem 1 true 0; mkItem 2 false 10;
                           mkItem 3 true 20 ]).
  { left. reflexivity. }
  split; [exact H|].
  exact (filters_return_sublist ACCESS_LEVELS_sample (OnManager table_sample)
           (PyStr "member") _ H).
Defined.

(** ** Further properties of accessible_to *)

Section accessible_to_more.

Variable ACCESS_LEVELS : gmap string Z.
Variable sys_argv : list string.
Variable auth_user : gmap Z User.

(** The three branches, on the rows of [self]. *)
Lemma accessible_to_UserObj (self : Self) (u : User) :
  accessible_to ACCESS_LEVELS sys_argv auth_user self (UserObj u)
  = if is_superuser u then Return (rows self)
    else if is_authenticated u then
      group ← getitem (order_by_minus_id (groups u)) 0;
      QuerySet_filter (rows self)
        (access_level__lte (ACCESS_LEVELS !! group_name group))
    else
      QuerySet_filter (rows self)
        (access_level__lte (ACCESS_LEVELS !! "public")).
Proof.
  unfold accessible_to. rewrite bind_Return.
  destruct (is_superuser u); [by destruct self|].
  destruct (is_authenticated u); [|apply self_filter_rows].
  destruct (getitem (order_by_minus_id (groups u)) 0) as [g|e];
    [|reflexivity].
  rewrite !bind_Return. apply self_filter_rows.
Qed.

(** The argument is resolved first; the rest is the call on the user
    object. *)
Lemma accessible_to_resolve (self : Self) (user : UserArg) :
  accessible_to ACCESS_LEVELS sys_argv auth_user self user
  = (u ← match user with
         | UserPk user_pk => User_objects_get sys_argv auth_user user_pk
         | UserObj u => Return u
         end;
     accessible_to ACCESS_LEVELS sys_argv auth_user self (UserObj u)).
Proof.
  destruct user as [user_pk|u]; [|reflexivity].
  unfold accessible_to.
  destruct (User_objects_get sys_argv auth_user user_pk); reflexivity.
Qed.

(** X6: on a manager each of the three methods gives what it gives on
    the query set the manager's [get_query_set] returns. *)
Theorem manager_methods_as_on_get_query_set
  (table : QuerySet) (level : Level) (user : UserArg) :
  (qs ← get_query_set (OnManager table); published (OnQuerySet qs))
  = published (OnManager table)
  ∧ (qs ← get_query_set (OnManager table);
     access_level_up_to ACCESS_LEVELS (OnQuerySet qs) level)
    = access_level_up_to ACCESS_LEVELS (OnManager table) level
  ∧ (qs ← get_query_set (OnManager table);
     accessible_to ACCESS_LEVELS sys_argv auth_user (OnQuerySet qs) user)
    = accessible_to ACCESS_LEVELS sys_argv auth_user (OnManager table) user.
Proof.
  split; [reflexivity|]. split; [reflexivity|].
  simpl get_query_set. rewrite bind_Return.
  rewrite (accessible_to_resolve (OnQuerySet table)),
          (accessible_to_resolve (OnManager table)).
  destruct (match user with
            | UserPk user_pk => User_objects_get sys_argv auth_user user_pk
            | UserObj u => Return u
            end) as [u|e]; [|reflexivity].
  rewrite !bind_Return. by rewrite !accessible_to_UserObj.
Qed.

(** An integer that does not resolve ends the call with the error of
    the lookup. *)
Lemma accessible_to_pk_Raise (self : Self) (user_pk : Z) (e : Exception) :
  User_objects_get sys_argv auth_user user_pk = Raise e →
  accessible_to ACCESS_LEVELS sys_argv auth_user self (UserPk user_pk)
  = Raise e.
Proof. intros Hget. unfold accessible_to. by rewrite Hget. Qed.

Lemma accessible_to_UserObj_idempotent (self : Self) (u : User) :
  (qs ← accessible_to ACCESS_LEVELS sys_argv auth_user self (UserObj u);
   accessible_to ACCESS_LEVELS sys_argv auth_user (OnQuerySet qs) (UserObj u))
  = accessible_to ACCESS_LEVELS sys_argv auth_user self (UserObj u).
Proof.
  rewrite (accessible_to_UserObj self).
  destruct (is_superuser u) eqn:Hsu.
  - by rewrite bind_Return, accessible_to_UserObj, Hsu.
  - destruct (is_authenticated u) eqn:Hauth.
    + destruct (getitem (order_by_minus_id (groups u)) 0) as [g|e] eqn:Hg;
        [|reflexivity].
      rewrite !bind_Return.
      rewrite <- (QuerySet_filter_idemp (rows self)) at 2.
      destruct (QuerySet_filter (rows self) _) as [qs|e]; [|reflexivity].
      by rewrite !bind_Return, accessible_to_UserObj, Hsu, Hauth, Hg.
    + rewrite <- (QuerySet_filter_idemp (rows self)) at 2.
      destruct (QuerySet_filter (rows self) _) as [qs|e]; [|reflexivity].
      by rewrite !bind_Return, accessible_to_UserObj, Hsu, Hauth.
Qed.

(** X7: [accessible_to] applied to its own result, for the same user,
    changes nothing; if the first call raises, so does the chain. *)
Theorem accessible_to_idempotent (self : Self) (user : UserArg) :
  (qs ← accessible_to ACCESS_LEVELS sys_argv auth_user self user;
   accessible_to ACCESS_LEVELS sys_argv auth_user (OnQuerySet qs) user)
  = accessible_to ACCESS_LEVELS sys_argv auth_user self user.
Proof.
  destruct user as [user_pk|u]; [|apply accessible_to_UserObj_idempotent].
  destruct (User_objects_get sys_argv auth_user user_pk) as [u|e] eqn:Hget.
  - rewrite (accessible_to_pk _ _ _ self user_pk u Hget).
    rewrite <- (accessible_to_UserObj_idempotent self u) at 2.
    destruct (accessible_to _ _ _ self (UserObj u)) as [qs|e]; [|reflexivity].
    by rewrite !bind_Return, (accessible_to_pk _ _ _ _ user_pk u Hget).
  - by rewrite (accessible_to_pk_Raise self user_pk e Hget).
Qed.

Lemma published_accessible_to_UserObj (self : Self) (u : User) :
  (qs ← published self;
   accessible_to ACCESS_LEVELS sys_argv auth_user (OnQuerySet qs) (UserObj u))
  = (qs ← accessible_to ACCESS_LEVELS sys_argv auth_user self (UserObj u);
     published (OnQuerySet qs)).
Proof.
  unfold published. rewrite (self_filter_rows self).
  rewrite (accessible_to_UserObj self).
  destruct (is_superuser u) eqn:Hsu.
  - rewrite !bind_Return. simpl QuerySet_filter at 1.
    by rewrite bind_Return, accessible_to_UserObj, Hsu.
  - destruct (is_authenticated u) eqn:Hauth.
    + destruct (getitem (order_by_minus_id (groups u)) 0) as [g|e] eqn:Hg.
      * rewrite bind_Return.
        rewrite <- (QuerySet_filter_commute (rows self)
                      (is_published_exact true)).
        simpl QuerySet_filter at 1. rewrite !bind_Return.
        by rewrite accessible_to_UserObj, Hsu, Hauth, Hg.
      * simpl QuerySet_filter at 1. rewrite bind_Return.
        by rewrite accessible_to_UserObj, Hsu, Hauth, Hg.
    + rewrite <- (QuerySet_filter_commute (rows self)
                    (is_published_exact true)).
      simpl QuerySet_filter at 1. rewrite !bind_Return.
      by rewrite accessible_to_UserObj, Hsu, Hauth.
Qed.

(** X8: [published] and [accessible_to] can be chained in either
    order: the same rows, or the same exception. *)
Theorem published_accessible_to_commute (self : Self) (user : UserArg) :
  (qs ← published self;
   accessible_to ACCESS_LEVELS sys_argv auth_user (OnQuerySet qs) user)
  = (qs ← accessible_to ACCESS_LEVELS sys_argv auth_user self user;
     published (OnQuerySet qs)).
Proof.
  destruct user as [user_pk|u]; [|apply published_accessible_to_UserObj].
  destruct (User_objects_get sys_argv auth_user user_pk) as [u|e] eqn:Hget.
  - rewrite (accessible_to_pk _ _ _ self user_pk u Hget).
    rewrite <- published_accessible_to_UserObj.
    destruct (published self) as [qs|e]; [|reflexivity].
    by rewrite !bind_Return, (accessible_to_pk _ _ _ _ user_pk u Hget).
  - rewrite (accessible_to_pk_Raise self user_pk e Hget).
    unfold published. rewrite self_filter_rows. simpl QuerySet_filter.
    by rewrite bind_Return, (accessible_to_pk_Raise _ user_pk e Hget).
Qed.

End accessible_to_more.

Section accessible_to_edges.

Variable ACCESS_LEVELS : gmap string Z.
Variable sys_argv : list string.
Variable auth_user : gmap Z User.

Lemma User_is_bound_true :
  "synchronize" ∉ sys_argv → "celery" ∉ sys_argv →
  User_is_bound sys_argv = true.
Proof.
  intros Hs Hc. unfold User_is_bound.
  by rewrite !bool_decide_eq_true_2.
Qed.

(** X9: when the command line holds "synchronize" or "celery", the
    module has no [User], and [accessible_to] with an integer raises
    [NameError], whatever the integer and the users table. *)
Theorem accessible_to_pk_NameError (self : Self) (user_pk : Z) :
  "synchronize" ∈ sys_argv ∨ "celery" ∈ sys_argv →
  accessible_to ACCESS_LEVELS sys_argv auth_user self (UserPk user_pk)
  = Raise NameError.
Proof.
  intros Hargv. apply accessible_to_pk_Raise.
  unfold User_objects_get, User_is_bound.
  destruct Hargv as [Hs|Hc].
  - by rewrite (bool_decide_eq_false_2 ("synchronize" ∉ sys_argv)) by tauto.
  - rewrite (bool_decide_eq_false_2 ("celery" ∉ sys_argv)) by tauto.
    by rewrite andb_false_r.
Qed.

(** X10: with [User] bound, an integer that is no primary key of the
    users table makes [accessible_to] raise [DoesNotExist]. *)
Theorem accessible_to_pk_DoesNotExist (self : Self) (user_pk : Z) :
  "synchronize" ∉ sys_argv → "celery" ∉ sys_argv →
  auth_user !! user_pk = None →
  accessible_to ACCESS_LEVELS sys_argv auth_user self (UserPk user_pk)
  = Raise DoesNotExist.
Proof.
  intros Hs Hc Hpk. apply accessible_to_pk_Raise.
  unfold User_objects_get. by rewrite User_is_bound_true, Hpk.
Qed.

(** X11: with [User] bound, [accessible_to] with the primary key of a
    user is [accessible_to] with that user. *)
Theorem accessible_to_pk_as_user (self : Self) (user_pk : Z) (u : User) :
  "synchronize" ∉ sys_argv → "celery" ∉ sys_argv →
  auth_user !! user_pk = Some u →
  accessible_to ACCESS_LEVELS sys_argv auth_user self (UserPk user_pk)
  = accessible_to ACCESS_LEVELS sys_argv auth_user self (UserObj u).
Proof.
  intros Hs Hc Hpk. apply accessible_to_pk.
  unfold User_objects_get. by rewrite User_is_bound_true, Hpk.
Qed.

(** X12: for an authenticated user who is no superuser and has a
    group, [accessible_to] is [access_level_up_to] called with the name
    of a group of the user that has the largest identifier: the same
    rows, or the same [ValueError] when that name is no tier. *)
Theorem accessible_to_as_group_name (self : Self) (u : User) :
  is_superuser u = false →
  is_authenticated u = true →
  groups u ≠ [] →
  ∃ g : Group,
    g ∈ groups u
    ∧ (∀ g', g' ∈ groups u → group_id g' ≤ group_id g)
    ∧ accessible_to ACCESS_LEVELS sys_argv auth_user self (UserObj u)
      = access_level_up_to ACCESS_LEVELS self (PyStr (group_name g)).
Proof.
  intros Hsu Hauth Hgroups.
  destruct (order_by_minus_id_first (groups u) Hgroups)
    as (g & Hfirst & Hg & Hmax).
  exists g. split; [exact Hg|]. split; [exact Hmax|].
  rewrite (accessible_to_authenticated _ _ _ self u Hsu Hauth), Hfirst.
  reflexivity.
Qed.

(** X13: if the name of the user's group with the largest identifier
    is no key of [ACCESS_LEVELS], [accessible_to] raises [ValueError],
    even when other groups of the user are tiers. *)
Theorem accessible_to_group_not_tier (self : Self) (u : User) (g : Group) :
  is_superuser u = false →
  is_authenticated u = true →
  NoDup (group_id <$> groups u) →
  g ∈ groups u →
  (∀ g', g' ∈ groups u → group_id g' ≤ group_id g) →
  ACCESS_LEVELS !! group_name g = None →
  accessible_to ACCESS_LEVELS sys_argv auth_user self (UserObj u)
  = Raise ValueError.
Proof.
  intros Hsu Hauth Hnodup Hg Hmax Hname.
  destruct (accessible_to_as_group_name self u Hsu Hauth)
    as (g0 & Hg0 & Hmax0 & ->).
  { intros Hnil. rewrite Hnil in Hg. inversion Hg. }
  assert (g0 = g) as ->.
  { apply (group_id_inj_on (groups u)); auto.
    specialize (Hmax g0 Hg0). specialize (Hmax0 g Hg). lia. }
  by rewrite access_level_up_to_filter, Hname.
Qed.

(** X14: if [ACCESS_LEVELS] has no key "public", [accessible_to] raises
    [ValueError] for every user who is neither superuser nor
    authenticated. *)
Theorem accessible_to_anonymous_no_public (self : Self) (u : User) :
  is_superuser u = false →
  is_authenticated u = false →
  ACCESS_LEVELS !! "public" = None →
  accessible_to ACCESS_LEVELS sys_argv auth_user self (UserObj u)
  = Raise ValueError.
Proof.
  intros Hsu Hauth Hpublic.
  by rewrite accessible_to_UserObj, Hsu, Hauth, Hpublic.
Qed.

(** X15: a query set returned by [accessible_to] holds rows of the
    collection only, in the order of the collection. *)
Theorem accessible_to_returns_sublist
  (self : Self) (user : UserArg) (qs : QuerySet) :
  accessible_to ACCESS_LEVELS sys_argv auth_user self user = Return qs →
  qs `sublist_of` rows self.
Proof.
  rewrite accessible_to_resolve.
  destruct (match user with
            | UserPk user_pk => User_objects_get sys_argv auth_user user_pk
            | UserObj u => Return u
            end) as [u|e]; [|discriminate].
  rewrite bind_Return, accessible_to_UserObj.
  destruct (is_superuser u); [by intros [= <-]|].
  destruct (is_authenticated u).
  - destruct (getitem (order_by_minus_id (groups u)) 0) as [g|e];
      [|discriminate].
    rewrite bind_Return. apply QuerySet_filter_sublist.
  - apply QuerySet_filter_sublist.
Qed.


End accessible_to_edges.

Lemma accessible_to_pk_NameError_witness :
  ("synchronize" ∈ ["manage.py"; "celery"; "worker"]
   ∨ "celery" ∈ ["manage.py"; "celery"; "worker"])
  ∧ accessible_to ACCESS_LEVELS_sample ["manage.py"; "celery"; "worker"]
      auth_user_sample (OnManager table_sample) (UserPk 1)
    = Raise NameError.
Proof.
  assert (H : "synchronize" ∈ ["manage.py"; "celery"; "worker"]
              ∨ "celery" ∈ ["manage.py"; "celery"; "worker"]).
  { right. apply (bool_decide_unpack _). vm_compute. exact I. }
  split; [exact H|].
  exact (accessible_to_pk_NameError ACCESS_LEVELS_sample _ auth_user_sample
           (OnManager table_sample) 1 H).
Defined.

Lemma accessible_to_pk_DoesNotExist_witness :
  ("synchronize" ∉ ["manage.py"; "runserver"])
  ∧ ("celery" ∉ ["manage.py"; "runserver"])
  ∧ auth_user_sample !! 5 = None
  ∧ accessible_to ACCESS_LEVELS_sample ["manage.py"; "runserver"]
      auth_user_sample (OnManager table_sample) (UserPk 5)
    = Raise DoesNotExist.
Proof.
  assert (Hs : "synchronize" ∉ ["manage.py"; "runserver"]).
  { apply (bool_decide_unpack _). vm_compute. exact I. }
  assert (Hc : "celery" ∉ ["manage.py"; "runserver"]).
  { apply (bool_decide_unpack _). vm_compute. exact I. }
  assert (Hpk : auth_user_sample !! 5 = None) by reflexivity.
  repeat (split; [assumption|]).
  exact (accessible_to_pk_DoesNotExist ACCESS_LEVELS_sample _ auth_user_sample
           (OnManager table_sample) 5 Hs Hc Hpk).
Defined.

Lemma accessible_to_pk_as_user_witness :
  ("synchronize" ∉ ["manage.py"; "runserver"])
  ∧ ("celery" ∉ ["manage.py"; "runserver"])
  ∧ auth_user_sample !! 2 = Some (mkUser false true groups_sample)
  ∧ accessible_to ACCESS_LEVELS_sample ["manage.py"; "runserver"]
      auth_user_sample (OnManager table_sample) (UserPk 2)
    = accessible_to ACCESS_LEVELS_sample ["manage.py"; "runserver"]
        auth_user_sample (OnManager table_sample)
        (UserObj (mkUser false true groups_sample)).
Proof.
  assert (Hs : "synchronize" ∉ ["manage.py"; "runserver"]).
  { apply (bool_decide_unpack _). vm_compute. exact I. }
  assert (Hc : "celery" ∉ ["manage.py"; "runserver"]).
  { apply (bool_decide_unpack _). vm_compute. exact I. }
  assert (Hpk : auth_user_sample !! 2
                = Some (mkUser false true groups_sample)) by reflexivity.
  repeat (split; [assumption|]).
  exact (accessible_to_pk_as_user ACCESS_LEVELS_sample _ auth_user_sample
           (OnManager table_sample) 2 _ Hs Hc Hpk).
Defined.

Lemma accessible_to_as_group_name_witness :
  groups (mkUser false true groups_sample) ≠ []
  ∧ ∃ g : Group,
      g ∈ groups_sample
      ∧ (∀ g', g' ∈ groups_sample → group_id g' ≤ group_id g)
      ∧ accessible_to ACCESS_LEVELS_sample [] ∅ (OnQuerySet table_sample)
          (UserObj (mkUser false true groups_sample))
        = access_level_up_to ACCESS_LEVELS_sample (OnQuerySet table_sample)
            (PyStr (group_name g)).
Proof.
  assert (Hne : groups (mkUser false true groups_sample) ≠ [])
    by discriminate.
  split; [exact Hne|].
  exact (accessible_to_as_group_name ACCESS_LEVELS_sample [] ∅
           (OnQuerySet table_sample) (mkUser false true groups_sample)
           eq_refl eq_refl Hne).
Defined.

(** A member of "admin" (id 1) and of "editors" (id 9): the newer group
    decides, and it is no tier. *)
Lemma accessible_to_group_not_tier_witness :
  NoDup (group_id <$> groups_editors)
  ∧ mkGroup 9 "editors" ∈ groups_editors
  ∧ (∀ g', g' ∈ groups_editors → group_id g' ≤ 9)
  ∧ ACCESS_LEVELS_sample !! "editors" = None
  ∧ accessible_to ACCESS_LEVELS_sample [] ∅ (OnQuerySet table_sample)
      (UserObj (mkUser false true groups_editors))
    = Raise ValueError.
Proof.
  assert (Hnodup : NoDup (group_id <$> groups_editors)).
  { apply (bool_decide_unpack _). vm_compute. exact I. }
  assert (Hin : mkGroup 9 "editors" ∈ groups_editors).
  { apply (bool_decide_unpack _). vm_compute. exact I. }
  assert (Hmax : ∀ g', g' ∈ groups_editors → group_id g' ≤ 9).
  { apply Forall_forall. apply (bool_decide_unpack _). vm_compute. exact I. }
  assert (Hname : ACCESS_LEVELS_sample !! "editors" = None) by reflexivity.
  repeat (split; [assumption|]).
  exact (accessible_to_group_not_tier ACCESS_LEVELS_sample [] ∅
           (OnQuerySet table_sample) (mkUser false true groups_editors)
           (mkGroup 9 "editors") eq_refl eq_refl Hnodup Hin Hmax Hname).
Defined.

Lemma accessible_to_anonymous_no_public_witness :
  (∅ : gmap string Z) !! "public" = None
  ∧ accessible_to ∅ [] ∅ (OnManager table_sample) (UserObj AnonymousUser)
    = Raise ValueError.
Proof.
  split; [reflexivity|].
  exact (accessible_to_anonymous_no_public ∅ [] ∅ (OnManager table_sample)
           AnonymousUser eq_refl eq_refl eq_refl).
Defined.

Lemma accessible_to_returns_sublist_witness :
  accessible_to ACCESS_LEVELS_sample [] ∅ (OnQuerySet table_sample)
    (UserObj (mkUser false true groups_sample))
  = Return [ mkItem 1 true 0; mkItem 2 false 10 ]
  ∧ [ mkItem 1 true 0; mkItem 2 false 10 ]
    `sublist_of` rows (OnQuerySet table_sample).
Proof.
  split; [reflexivity|].
  exact (accessible_to_returns_sublist ACCESS_LEVELS_sample [] ∅
           (OnQuerySet table_sample)
           (UserObj (mkUser false true groups_sample)) _ eq_refl).
Defined.


(** ** Further properties of the forwarding and of the class table *)

(** X17: a manager answers for the names of its class and for the
    names of its query set, the class first: the lookup through
    [__getattr__] is the lookup in the union of the two namespaces, and
    fails exactly when the name is in neither. *)
Theorem getattr_union_of_namespaces {Object : Type}
  (class_namespace : gmap string Object)
  (QuerySet_namespace : QuerySet → gmap string Object)
  (table : QuerySet) (attr : string) :
  __getattr__ Object class_namespace QuerySet_namespace
    (OnManager table) attr []
  = getattr Object (class_namespace ∪ QuerySet_namespace table) attr []
  ∧ (__getattr__ Object class_namespace QuerySet_namespace
       (OnManager table) attr [] = Raise AttributeError
     ↔ class_namespace !! attr = None
       ∧ QuerySet_namespace table !! attr = None).
Proof.
  unfold __getattr__, getattr. simpl get_query_set.
  rewrite lookup_union.
  destruct (class_namespace !! attr) as [v|] eqn:Hclass;
    [|rewrite bind_Return];
    destruct (QuerySet_namespace table !! attr) as [w|] eqn:Hqs;
    simpl; (split; [reflexivity|]); split;
      try discriminate; try tauto; intros [? ?]; discriminate.
Qed.

(** X18: every manager class lists [ExtendedManagerMixin] and then
    exactly the mixins of the query set class its [get_query_set]
    returns, in the same order; so a manager and its query set have the
    same filter methods. *)
Theorem manager_mixins_match_query_set (c : ManagerClass) :
  snd (ManagerClass_bases c)
  = ExtendedManagerMixin :: snd (QuerySetClass_bases (get_query_set_class c))
  ∧ ∀ name : string,
      name ≠ "__getattr__" →
      (name ∈ Mixins_methods (snd (ManagerClass_bases c))
       ↔ name ∈ Mixins_methods
                  (snd (QuerySetClass_bases (get_query_set_class c)))).
Proof.
  assert (snd (ManagerClass_bases c)
          = ExtendedManagerMixin
              :: snd (QuerySetClass_bases (get_query_set_class c))) as Heq
    by (destruct c; reflexivity).
  split; [exact Heq|].
  intros name Hname. rewrite Heq. unfold Mixins_methods.
  rewrite bind_cons, elem_of_app. simpl Mixin_methods.
  rewrite list_elem_of_singleton. tauto.
Qed.

(** X19: under either value of [HSTORE_ENABLED], a manager class is
    defined exactly when the class its [get_query_set] names is
    defined. *)
Theorem get_query_set_class_defined (hstore : bool) (c : ManagerClass) :
  QuerySetClass_defined hstore (get_query_set_class c)
  = ManagerClass_defined hstore c.
Proof. destruct c; reflexivity. Qed.

(** X20: the classes on the hstore back end are left out only when
    the setting "HSTORE" is present and false; without the key they are
    defined. *)
Theorem hstore_classes_defined_by_default (SETTINGS : gmap string bool) :
  ((∀ c : ManagerClass,
      ManagerClass_defined (HSTORE_ENABLED SETTINGS) c = true)
   ∧ (∀ c : QuerySetClass,
        QuerySetClass_defined (HSTORE_ENABLED SETTINGS) c = true))
  ↔ SETTINGS !! "HSTORE" ≠ Some false.
Proof.
  unfold HSTORE_ENABLED. split.
  - intros [Hm _] Hfalse. specialize (Hm HStoreAccessLevelManager).
    rewrite Hfalse in Hm. discriminate.
  - intros Hsetting.
    assert (default true (SETTINGS !! "HSTORE") = true) as ->.
    { destruct (SETTINGS !! "HSTORE") as [[|]|]; [done| |done].
      by destruct Hsetting. }
    split; intros c; by destruct c.
Qed.

(** X21: [NetAccessLevelQuerySet] is the one query set class that no
    manager's [get_query_set] returns; [NetAccessLevelManager] returns
    the class [AccessLevelManager] returns. *)
Theorem NetAccessLevelQuerySet_not_returned (q : QuerySetClass) :
  ((∃ c : ManagerClass, get_query_set_class c = q)
   ↔ q ≠ NetAccessLevelQuerySet)
  ∧ get_query_set_class NetAccessLevelManager
    = get_query_set_class AccessLevelManager.
Proof.
  split; [|reflexivity]. split.
  - intros [c <-]. by destruct c.
  - intros Hq. destruct q;
      [ by exists PublishedManager
      | by exists GeoPublishedManager
      | by exists AccessLevelManager
      | by exists AccessLevelPublishedManager
      | done
      | by exists GeoAccessLevelPublishedManager
      | by exists HStoreAccessLevelManager
      | by exists HStoreGeoAccessLevelPublishedManager ].
Qed.

Lemma manager_mixins_match_query_set_witness :
  "published" ≠ "__getattr__"
  ∧ ("published"
       ∈ Mixins_methods (snd (ManagerClass_bases AccessLevelPublishedManager))
     ↔ "published"
         ∈ Mixins_methods
             (snd (QuerySetClass_bases
                     (get_query_set_class AccessLevelPublishedManager)))).
Proof.
  assert (H : "published" ≠ "__getattr__") by discriminate.
  split; [exact H|].
  exact (proj2 (manager_mixins_match_query_set AccessLevelPublishedManager)
           "published" H).
Defined.

(** A manager without [PublishedMixin] gets no [published] from its
    query set either. *)
Example AccessLevelManager_has_no_published :
  ("published" ∉ Mixins_methods (snd (ManagerClass_bases AccessLevelManager)))
  ∧ ("published"
       ∉ Mixins_methods
           (snd (QuerySetClass_bases
                   (get_query_set_class AccessLevelManager)))).
Proof. split; apply (bool_decide_unpack _); vm_compute; exact I. Qed.
